(** * OpenID Connect relying party views ([oidc_rp/views.py])

    A shallow embedding of the three views of [oidc_rp.views]: the view that
    starts the authorization flow, the callback view that completes it and the
    end-session view.  The Django session is a finite map from keys to
    strings, [request.GET] is the list of the query string's pairs, and the
    collaborators the views call ([django.contrib.auth], the random string
    generator, [urlencode], [reverse]) are variables of the development. *)

From stdpp Require Import gmap strings list.

Open Scope string_scope.
Open Scope list_scope.

(** ** Python values *)

(** Truth value of what [session.get(key, None)] and [session.pop(key, None)]
    return: [None] and the empty string are false, any other string is true. *)
Definition truthy (v : option string) : bool :=
  match v with
  | Some (String _ _) => true
  | Some EmptyString => false
  | None => false
  end.

(** ** [request.GET]: a [QueryDict] *)

(** The pairs of the query string, in the order they were sent.  A key may be
    repeated. *)
Definition QueryDict : Type := list (string * string).

(** [key in q] *)
Definition qd_contains (key : string) (q : QueryDict) : bool :=
  existsb (fun kv => String.eqb (fst kv) key) q.

(** [q[key]]: the last value sent for [key]; [None] stands for the
    [MultiValueDictKeyError] of a key that was not sent. *)
Fixpoint qd_getitem (key : string) (q : QueryDict) : option string :=
  match q with
  | [] => None
  | (k, v) :: q' =>
      match qd_getitem key q' with
      | Some w => Some w
      | None => if String.eqb k key then Some v else None
      end
  end.

(** ** Requests, responses, exceptions *)

Record HttpRequest : Type := {
  GET : QueryDict;
  build_absolute_uri : string -> string
}.

Inductive HttpResponse : Type :=
| HttpResponseRedirect (redirect_to : string).

Inductive Exception : Type :=
| SuspiciousOperation (message : string)
| MultiValueDictKeyError (key : string).

(** The local principal returned by the verifier; only [is_active] matters to
    the views. *)
Record User : Type := {
  username : string;
  is_active : bool
}.

(** ** Settings ([oidc_rp.conf.settings]) *)

(** The settings the views read ([oidc_rp/conf.py] is not part of the source
    at hand; the fields are the attributes that [views.py] reads).
    [PROVIDER_END_SESSION_ENDPOINT], which only the end-session view reads, is
    optional: [None] when the provider has no end-session endpoint. *)

Record Settings : Type := {
  SCOPES : string;
  CLIENT_ID : string;
  USE_NONCE : bool;
  STATE_LENGTH : nat;
  NONCE_LENGTH : nat;
  PROVIDER_AUTHORIZATION_ENDPOINT : string;
  PROVIDER_END_SESSION_ENDPOINT : option string;
  AUTHENTICATION_REDIRECT_URI : string;
  AUTHENTICATION_FAILURE_REDIRECT_URI : string
}.

(** Modelled from the spec: what the end-session view reads besides the
    settings (the view's body is not in the source file): the post-logout
    redirect URI sent to the provider, the local post-logout target, and the
    ID-token hint retained from login, if any. *)
Record EndSessionInputs : Type := {
  post_logout_redirect_uri : string;
  post_logout_target : string;
  id_token_hint : option string
}.

(** ** The world a view runs in *)

(** Calls made to [django.contrib.auth], oldest first. *)
Inductive Call : Type :=
| CallAuthenticate (nonce : option string)
| CallLogin (user : User)
| CallLogout.

(** [django.contrib.auth] as the callback view uses it.  The verifier and
    [login] receive the request, hence the session, and may write to it: each
    returns the session it leaves behind. *)
Record Auth : Type := {
  authenticate :
    option string -> HttpRequest -> gmap string string ->
    option User * gmap string string;
  login : HttpRequest -> User -> gmap string string -> gmap string string
}.

Record World (Rng : Type) : Type := {
  session : gmap string string;
  calls : list Call;
  rng : Rng
}.
Arguments session {Rng} _.
Arguments calls {Rng} _.
Arguments rng {Rng} _.

Inductive Result (A : Type) : Type :=
| Return (a : A)
| Raise (e : Exception).
Arguments Return {A} _.
Arguments Raise {A} _.

(** A view is a function of the world that returns or raises, and leaves a
    world behind in both cases. *)
Definition View (Rng A : Type) : Type := World Rng -> Result A * World Rng.

Definition view_ret {Rng A} (a : A) : View Rng A := fun w => (Return a, w).

Definition view_raise {Rng A} (e : Exception) : View Rng A :=
  fun w => (Raise e, w).

Definition view_bind {Rng A B} (m : View Rng A) (k : A -> View Rng B)
  : View Rng B :=
  fun w =>
    match m w with
    | (Return a, w') => k a w'
    | (Raise e, w') => (Raise e, w')
    end.

Declare Scope view_scope.
Delimit Scope view_scope with view.
Notation "x ← m ; k" := (view_bind m (fun x => k))
  (at level 20, m at level 100, k at level 200, only parsing) : view_scope.
Notation "m ;; k" := (view_bind m (fun _ => k))
  (at level 100, k at level 200, only parsing, right associativity)
  : view_scope.

(** [request.session.get(key, None)] *)
Definition session_get {Rng} (key : string) : View Rng (option string) :=
  fun w => (Return (session w !! key), w).

(** [request.session.pop(key, None)] *)
Definition session_pop {Rng} (key : string) : View Rng (option string) :=
  fun w =>
    (Return (session w !! key),
     {| session := delete key (session w); calls := calls w; rng := rng w |}).

(** [request.session[key] = value] *)
Definition session_set {Rng} (key value : string) : View Rng unit :=
  fun w =>
    (Return tt,
     {| session := <[key := value]> (session w);
        calls := calls w; rng := rng w |}).

(** [callback_params[key]] *)
Definition qd_index {Rng} (q : QueryDict) (key : string) : View Rng string :=
  match qd_getitem key q with
  | Some v => view_ret v
  | None => view_raise (MultiValueDictKeyError key)
  end.

Section Views.

Context {Rng : Type}.

(** [django.utils.crypto.get_random_string] *)
Variable get_random_string : nat -> Rng -> string * Rng.
(** [django.utils.http.urlencode], on a dict of strings *)
Variable urlencode : gmap string string -> string.
(** [django.core.urlresolvers.reverse] *)
Variable reverse : string -> string.
(** [django.contrib.auth] *)
Variable auth : Auth.
(** [oidc_rp.conf.settings] *)
Variable oidc_rp_settings : Settings.

Local Open Scope view_scope.

(** [get_random_string(length)], drawing from the world's generator *)
Definition random_string (length : nat) : View Rng string :=
  fun w =>
    let '(s, g) := get_random_string length (rng w) in
    (Return s, {| session := session w; calls := calls w; rng := g |}).

(** [auth.authenticate(nonce=nonce, request=request)] *)
Definition auth_authenticate (nonce : option string) (request : HttpRequest)
  : View Rng (option User) :=
  fun w =>
    let '(user, s) := authenticate auth nonce request (session w) in
    (Return user,
     {| session := s;
        calls := calls w ++ [CallAuthenticate nonce];
        rng := rng w |}).

(** [auth.login(request, user)] *)
Definition auth_login (request : HttpRequest) (user : User)
  : View Rng unit :=
  fun w =>
    (Return tt,
     {| session := login auth request user (session w);
        calls := calls w ++ [CallLogin user];
        rng := rng w |}).

(** *** [OIDCAuthRequestView.get] *)

(** The dict literal bound to [authentication_request_params]. *)
Definition common_params (request : HttpRequest) (state : string)
  : gmap string string :=
  <["scope" := SCOPES oidc_rp_settings]>
    (<["response_type" := "code"]>
      (<["client_id" := CLIENT_ID oidc_rp_settings]>
        (<["redirect_uri" :=
             build_absolute_uri request (reverse "oidc_auth_callback")]>
          (<["state" := state]> ∅)))).

Definition OIDCAuthRequestView_get (request : HttpRequest)
  : View Rng HttpResponse :=
  state ← random_string (STATE_LENGTH oidc_rp_settings);
  let authentication_request_params := common_params request state in
  authentication_request_params ←
    (if USE_NONCE oidc_rp_settings then
       nonce ← random_string (NONCE_LENGTH oidc_rp_settings);
       let updated := <["nonce" := nonce]> authentication_request_params in
       session_set "oidc_auth_nonce" nonce ;;
       view_ret updated
     else view_ret authentication_request_params);
  session_set "oidc_auth_state" state ;;
  let query := urlencode authentication_request_params in
  let redirect_url :=
    PROVIDER_AUTHORIZATION_ENDPOINT oidc_rp_settings +:+ "?" +:+ query in
  view_ret (HttpResponseRedirect redirect_url).

(** *** [OIDCAuthCallbackView.get] *)

(** The condition of the outer [if]. *)
Definition callback_guard
    (callback_params : QueryDict) (state nonce : option string) : bool :=
  ((truthy nonce && USE_NONCE oidc_rp_settings)
   || negb (USE_NONCE oidc_rp_settings))
  && (qd_contains "code" callback_params
      && qd_contains "state" callback_params)
  && truthy state.

(** The body of the outer [if]: [Some response] when it returns, [None]
    when control falls through to the last line of the view. *)
Definition callback_body
    (request : HttpRequest) (state nonce : option string)
  : View Rng (option HttpResponse) :=
  callback_state ← qd_index (GET request) "state";
  if bool_decide (Some callback_state ≠ state) then
    view_raise
      (SuspiciousOperation "Invalid OpenID Connect callback state value")
  else
    user ← auth_authenticate nonce request;
    match user with
    | Some u =>
        if is_active u then
          auth_login request u ;;
          view_ret
            (Some (HttpResponseRedirect
                     (AUTHENTICATION_REDIRECT_URI oidc_rp_settings)))
        else view_ret None
    | None => view_ret None
    end.

Definition OIDCAuthCallbackView_get (request : HttpRequest)
  : View Rng HttpResponse :=
  let callback_params := GET request in
  state ← session_get "oidc_auth_state";
  nonce ← session_pop "oidc_auth_nonce";
  returned ←
    (if callback_guard callback_params state nonce then
       callback_body request state nonce
     else view_ret None);
  match returned with
  | Some response => view_ret response
  | None =>
      view_ret
        (HttpResponseRedirect
           (AUTHENTICATION_FAILURE_REDIRECT_URI oidc_rp_settings))
  end.

(** *** [OIDCEndSessionView] *)

(** Modelled from the spec: the body of [OIDCEndSessionView] (the file ends
    after the docstring of the class).  The view clears the local session
    and authentication state; when an end-session endpoint is configured it
    redirects to it with the post-logout redirect URI, and the ID-token
    hint if one is available, as parameters; otherwise it redirects to the
    post-logout target. *)
Definition end_session_params (inputs : EndSessionInputs)
  : gmap string string :=
  let params : gmap string string :=
    <["post_logout_redirect_uri" := post_logout_redirect_uri inputs]> ∅ in
  match id_token_hint inputs with
  | Some token => <["id_token_hint" := token]> params
  | None => params
  end.

(** Modelled from the spec: clearing the local session and authentication
    state, which [OIDCEndSessionView] does first. *)
Definition clear_local_session : View Rng unit :=
  fun w =>
    (Return tt,
     {| session := ∅; calls := calls w ++ [CallLogout]; rng := rng w |}).

(** Modelled from the spec: [OIDCEndSessionView], see
    [end_session_params]. *)
Definition OIDCEndSessionView_get (inputs : EndSessionInputs)
  : View Rng HttpResponse :=
  clear_local_session ;;
  match PROVIDER_END_SESSION_ENDPOINT oidc_rp_settings with
  | Some endpoint =>
      let query := urlencode (end_session_params inputs) in
      view_ret (HttpResponseRedirect (endpoint +:+ "?" +:+ query))
  | None => view_ret (HttpResponseRedirect (post_logout_target inputs))
  end.

End Views.

(** The world after [request.session.pop('oidc_auth_nonce', None)]. *)
Definition popped {Rng} (w : World Rng) : World Rng :=
  {| session := delete "oidc_auth_nonce" (session w);
     calls := calls w; rng := rng w |}.

(** The collaborators in [auth] leave the session entry [key] as they found
    it. *)
Definition leaves_entry (auth : Auth) (key : string) : Prop :=
  (∀ nonce request s,
     (authenticate auth nonce request s).2 !! key = s !! key)
  ∧ (∀ request user s, login auth request user s !! key = s !! key).

(** The collaborators in [auth] never create the session entry [key]: a
    session without it is still without it when they return. *)
Definition never_adds (auth : Auth) (key : string) : Prop :=
  (∀ nonce request s,
     s !! key = None → (authenticate auth nonce request s).2 !! key = None)
  ∧ (∀ request user s,
       s !! key = None → login auth request user s !! key = None).

(** ** A concrete configuration on which the views can be run *)

Definition example_settings (use_nonce : bool) : Settings := {|
  SCOPES := "openid email";
  CLIENT_ID := "rp-client";
  USE_NONCE := use_nonce;
  STATE_LENGTH := 32;
  NONCE_LENGTH := 32;
  PROVIDER_AUTHORIZATION_ENDPOINT := "https://op.example/authorize";
  PROVIDER_END_SESSION_ENDPOINT := Some "https://op.example/end-session";
  AUTHENTICATION_REDIRECT_URI := "/";
  AUTHENTICATION_FAILURE_REDIRECT_URI := "/oidc/failure"
|}.

Definition alice : User := {| username := "alice"; is_active := true |}.

(** A verifier that accepts any callback carrying a code, and a [login] that
    records the user in the session. *)
Definition example_auth : Auth := {|
  authenticate := fun _ request s =>
    (if qd_contains "code" (GET request) then Some alice else None, s);
  login := fun _ user s => <["_auth_user_id" := username user]> s
|}.

(** The same verifier with a [login] of the shape of Django's: a session that
    holds the id of another user is emptied before the user is recorded in
    it. *)
Definition flushing_auth : Auth := {|
  authenticate := fun _ request s =>
    (if qd_contains "code" (GET request) then Some alice else None, s);
  login := fun _ user s =>
    let kept : gmap string string :=
      match s !! "_auth_user_id" with
      | Some id => if String.eqb id (username user) then s else ∅
      | None => s
      end in
    <["_auth_user_id" := username user]> kept
|}.

Definition example_request (query : QueryDict) : HttpRequest := {|
  GET := query;
  build_absolute_uri := fun location => "https://rp.example" +:+ location
|}.

Definition example_world (s : gmap string string) : World unit :=
  {| session := s; calls := []; rng := tt |}.

(** A generator whose state is a counter: it returns [length] copies of a
    letter chosen by the counter and advances the counter. *)
Definition example_get_random_string (length : nat) (g : nat) : string * nat :=
  (String.concat "" (replicate length (if Nat.even g then "a" else "b")),
   S g).

(** A stand-in for [urlencode] that joins the pairs without quoting them. *)
Definition example_urlencode (params : gmap string string) : string :=
  String.concat "&"
    ((fun kv : string * string => kv.1 +:+ "=" +:+ kv.2)
       <$> map_to_list params).

Definition example_reverse (name : string) : string := "/oidc/" +:+ name.

Definition example_world_from (s : gmap string string) (g : nat) : World nat :=
  {| session := s; calls := []; rng := g |}.

(** The calls a run that started in [w] and ended in [w'] has added. *)
Definition added_calls {Rng} (w w' : World Rng) : list Call :=
  drop (length (calls w)) (calls w').

(** ** Properties of the views *)

Lemma qd_contains_getitem key q :
  qd_contains key q = true ↔ is_Some (qd_getitem key q).
Proof.
  unfold qd_contains. induction q as [|[k v] q IH]; simpl.
  - split; [discriminate | intros [x Hx]; discriminate].
  - destruct (qd_getitem key q) as [w|].
    + split; [eauto | intros _].
      apply orb_true_iff. right. apply IH. eauto.
    + destruct (String.eqb k key); simpl; [split; eauto |].
      rewrite IH. split; intros [x Hx]; discriminate.
Qed.

Lemma truthy_nonempty (v : option string) :
  truthy v = true ↔ ∃ s, v = Some s ∧ s ≠ "".
Proof.
  destruct v as [[|a s]|]; simpl; split;
    try discriminate; try (intros (s' & Hs & Hne); congruence).
  intros _. eexists. split; [reflexivity | discriminate].
Qed.

Lemma callback_guard_true settings q (state nonce : option string) :
  callback_guard settings q state nonce = true ↔
  (truthy nonce = true ∨ USE_NONCE settings = false)
  ∧ (qd_contains "code" q = true ∧ qd_contains "state" q = true)
  ∧ truthy state = true.
Proof.
  unfold callback_guard.
  rewrite !andb_true_iff, orb_true_iff, andb_true_iff, negb_true_iff.
  destruct (USE_NONCE settings); intuition congruence.
Qed.

Section CallbackProperties.

Context {Rng : Type}.
Variable auth : Auth.
Variable oidc_rp_settings : Settings.

Local Abbreviation callback := (OIDCAuthCallbackView_get auth oidc_rp_settings).
Local Abbreviation failure_redirect :=
  (HttpResponseRedirect
     (AUTHENTICATION_FAILURE_REDIRECT_URI oidc_rp_settings)).
Local Abbreviation success_redirect :=
  (HttpResponseRedirect (AUTHENTICATION_REDIRECT_URI oidc_rp_settings)).
Local Abbreviation invalid_state :=
  (SuspiciousOperation "Invalid OpenID Connect callback state value").

(** When the guard is false the view pops the nonce and redirects to the
    failure URL; nothing else happens. *)
Lemma callback_guard_false request (w : World Rng) :
  callback_guard oidc_rp_settings (GET request)
    (session w !! "oidc_auth_state") (session w !! "oidc_auth_nonce") = false →
  callback request w = (Return failure_redirect, popped w).
Proof.
  intros Hg. unfold OIDCAuthCallbackView_get, view_bind, session_get,
    session_pop. simpl. rewrite Hg. reflexivity.
Qed.

(** When the guard is true and the states differ the view raises. *)
Lemma callback_guard_true_mismatch request (w : World Rng) :
  callback_guard oidc_rp_settings (GET request)
    (session w !! "oidc_auth_state") (session w !! "oidc_auth_nonce") = true →
  qd_getitem "state" (GET request) ≠ session w !! "oidc_auth_state" →
  callback request w = (Raise invalid_state, popped w).
Proof.
  intros Hg Hne. unfold OIDCAuthCallbackView_get, view_bind, session_get,
    session_pop. simpl. rewrite Hg.
  assert (Hc : qd_contains "state" (GET request) = true).
  { apply callback_guard_true in Hg. tauto. }
  apply qd_contains_getitem in Hc as [cs Hcs].
  unfold callback_body, view_bind, qd_index. rewrite Hcs. simpl.
  rewrite bool_decide_eq_true_2; [reflexivity | congruence].
Qed.

(** When the guard is true and the states agree the verifier runs, and
    [login] runs when it returns an active user. *)
Lemma callback_guard_true_match request (w : World Rng) :
  callback_guard oidc_rp_settings (GET request)
    (session w !! "oidc_auth_state") (session w !! "oidc_auth_nonce") = true →
  qd_getitem "state" (GET request) = session w !! "oidc_auth_state" →
  let nonce := session w !! "oidc_auth_nonce" in
  let verified :=
    authenticate auth nonce request (delete "oidc_auth_nonce" (session w)) in
  callback request w =
    match verified.1 with
    | Some u =>
        if is_active u then
          (Return success_redirect,
           {| session := login auth request u verified.2;
              calls := calls w ++ [CallAuthenticate nonce; CallLogin u];
              rng := rng w |})
        else
          (Return failure_redirect,
           {| session := verified.2;
              calls := calls w ++ [CallAuthenticate nonce];
              rng := rng w |})
    | None =>
        (Return failure_redirect,
         {| session := verified.2;
            calls := calls w ++ [CallAuthenticate nonce];
            rng := rng w |})
    end.
Proof.
  intros Hg Heq nonce verified.
  unfold OIDCAuthCallbackView_get, view_bind, session_get, session_pop.
  simpl. rewrite Hg.
  assert (Hs : truthy (session w !! "oidc_auth_state") = true).
  { apply callback_guard_true in Hg. tauto. }
  apply truthy_nonempty in Hs as (st & Hst & _).
  unfold callback_body, view_bind, qd_index. rewrite Heq, Hst. simpl.
  rewrite bool_decide_eq_false_2 by (intros H; apply H; reflexivity).
  unfold auth_authenticate. simpl.
  subst verified nonce.
  destruct (authenticate auth _ request _) as [[u|] s']; simpl;
    [destruct (is_active u); simpl |]; try reflexivity.
  unfold auth_login, view_ret. simpl. rewrite <- app_assoc. reflexivity.
Qed.

(** Splits a goal about a run of the callback view along the three ways the
    view can go. *)
Ltac callback_cases request w Hg Hst :=
  destruct (callback_guard oidc_rp_settings (GET request)
              (session w !! "oidc_auth_state")
              (session w !! "oidc_auth_nonce")) eqn:Hg;
  [ destruct (decide (qd_getitem "state" (GET request)
                      = session w !! "oidc_auth_state")) as [Hst|Hst];
    [ rewrite (callback_guard_true_match request w Hg Hst)
    | rewrite (callback_guard_true_mismatch request w Hg Hst) ]
  | rewrite (callback_guard_false request w Hg) ].

Lemma app_cons_neq {A} (l rest : list A) (x : A) : l ≠ l ++ x :: rest.
Proof.
  intros H. apply (f_equal length) in H. rewrite length_app in H.
  simpl in H. lia.
Qed.


(** Whatever the view does, the nonce entry is gone afterwards, provided the
    collaborators do not create one. *)
Lemma callback_nonce_gone request (w : World Rng) :
  never_adds auth "oidc_auth_nonce" →
  session (callback request w).2 !! "oidc_auth_nonce" = None.
Proof.
  intros [Ha Hl].
  callback_cases request w Hg Hst; simpl;
    [| apply lookup_delete_eq ..].
  specialize (Ha (session w !! "oidc_auth_nonce") request
                (delete "oidc_auth_nonce" (session w))
                (lookup_delete_eq _ _)).
  destruct (authenticate auth _ request _) as [[u|] s']; simpl in *;
    [destruct (is_active u)|]; simpl; [apply Hl | |]; exact Ha.
Qed.

(** C1 (as amended).  When the combined precondition holds with a non-empty
    session nonce (or nonce verification disabled), [code] and [state] in the
    callback parameters and a non-empty session state, a callback whose
    [state] parameter differs from the session state raises
    [SuspiciousOperation]; the verifier and [login] are not called, so no
    session is established, whatever the [code]. *)
Theorem callback_state_mismatch_is_suspicious
    request (w : World Rng) (state : string) :
  ((∃ nonce, session w !! "oidc_auth_nonce" = Some nonce ∧ nonce ≠ "")
   ∨ USE_NONCE oidc_rp_settings = false) →
  qd_contains "code" (GET request) = true →
  qd_contains "state" (GET request) = true →
  session w !! "oidc_auth_state" = Some state →
  state ≠ "" →
  qd_getitem "state" (GET request) ≠ Some state →
  (callback request w).1 = Raise invalid_state
  ∧ calls (callback request w).2 = calls w.
Proof.
  intros Hn Hc Hs Hst Hne Hdiff.
  rewrite callback_guard_true_mismatch; [split; reflexivity | | congruence].
  apply callback_guard_true. repeat split; try assumption.
  - destruct Hn as [Hn|Hn]; [left | right; exact Hn].
    apply truthy_nonempty. exact Hn.
  - apply truthy_nonempty. eauto.
Qed.

(** C2 (as amended).  The callback view proceeds past its preconditions (it
    raises the state violation or calls the verifier) if and only if a
    non-empty nonce was in the session or nonce verification is disabled,
    [code] and [state] are both in the callback parameters, and a non-empty
    state was in the session.  Whenever that condition is false the view
    pops the nonce and returns the redirect to the failure URL, without
    calling the verifier or [login]. *)
Theorem callback_proceeds_iff request (w : World Rng) :
  let nonce := session w !! "oidc_auth_nonce" in
  let state := session w !! "oidc_auth_state" in
  let precondition :=
    ((∃ n, nonce = Some n ∧ n ≠ "") ∨ USE_NONCE oidc_rp_settings = false)
    ∧ (qd_contains "code" (GET request) = true
       ∧ qd_contains "state" (GET request) = true)
    ∧ (∃ s, state = Some s ∧ s ≠ "") in
  let run := callback request w in
  ((run.1 = Raise invalid_state
    ∨ ∃ rest, calls run.2 = calls w ++ CallAuthenticate nonce :: rest)
   ↔ precondition)
  ∧ (¬ precondition → run = (Return failure_redirect, popped w)).
Proof.
  intros nonce state precondition run.
  assert (Hpre : precondition
                 ↔ callback_guard oidc_rp_settings (GET request) state nonce
                   = true).
  { subst precondition. rewrite callback_guard_true, <- !truthy_nonempty.
    reflexivity. }
  subst run nonce state. split.
  - rewrite Hpre. callback_cases request w Hg Hst; simpl.
    + split; [reflexivity | intros _; right].
      destruct (authenticate auth _ request _) as [[u|] s']; simpl;
        [destruct (is_active u)|]; simpl; eauto.
    + split; [reflexivity | intros _; left; reflexivity].
    + split; [| discriminate].
      intros [H|[rest H]]; [discriminate |].
      destruct (app_cons_neq _ _ _ H).
  - intros Hn. apply callback_guard_false.
    apply not_true_is_false. intros Hg. apply Hn, Hpre, Hg.
Qed.

(** C3.  Every run of the callback view removes the [oidc_auth_nonce] entry
    from the session, whether it returns the success redirect, returns the
    failure redirect or raises: the entry is absent afterwards, whatever else
    the verifier and [login] do to the session, as long as they do not create
    a nonce entry themselves.  Hence, with nonce verification enabled, a
    second callback in the session left by a first one returns the failure
    redirect without calling the verifier or [login]. *)
Theorem callback_consumes_nonce request (w : World Rng) :
  never_adds auth "oidc_auth_nonce" →
  let w' := (callback request w).2 in
  session w' !! "oidc_auth_nonce" = None
  ∧ (USE_NONCE oidc_rp_settings = true →
     ∀ request',
       (callback request' w').1 = Return failure_redirect
       ∧ calls (callback request' w').2 = calls w').
Proof.
  intros Hle w'.
  assert (Hgone : session w' !! "oidc_auth_nonce" = None)
    by (apply callback_nonce_gone, Hle).
  split; [exact Hgone |].
  intros Huse request'. rewrite callback_guard_false; [split; reflexivity |].
  unfold callback_guard. rewrite Hgone, Huse. reflexivity.
Qed.

(** C4.  A callback that finds no state in the session returns the redirect
    to the failure URL: it does not raise, and calls neither the verifier nor
    [login], even if it carries a [code] and a [state]. *)
Theorem callback_without_session_state_redirects request (w : World Rng) :
  session w !! "oidc_auth_state" = None →
  callback request w = (Return failure_redirect, popped w).
Proof.
  intros Hs. apply callback_guard_false. unfold callback_guard.
  rewrite Hs. simpl. apply andb_false_r.
Qed.

(** C6.  With nonce verification disabled and no nonce in the session, a
    callback that carries a [code] and a [state] equal to the (non-empty)
    session state reaches the verifier, and when the verifier returns an
    active user the view logs the user in and redirects to the success
    URL. *)
Theorem callback_succeeds_without_nonce
    request (w : World Rng) (state : string) (user : User) :
  USE_NONCE oidc_rp_settings = false →
  session w !! "oidc_auth_nonce" = None →
  qd_contains "code" (GET request) = true →
  session w !! "oidc_auth_state" = Some state →
  state ≠ "" →
  qd_getitem "state" (GET request) = Some state →
  (authenticate auth None request (session w)).1 = Some user →
  is_active user = true →
  (callback request w).1 = Return success_redirect
  ∧ calls (callback request w).2
    = calls w ++ [CallAuthenticate None; CallLogin user].
Proof.
  intros Huse Hn Hc Hst Hne Hcs Hv Hact.
  rewrite callback_guard_true_match.
  - rewrite Hn, (delete_id _ _ Hn), Hv, Hact. split; reflexivity.
  - apply callback_guard_true. repeat split.
    + right. exact Huse.
    + exact Hc.
    + apply qd_contains_getitem. eauto.
    + apply truthy_nonempty. eauto.
  - congruence.
Qed.

(** C7.  For a callback that passes the preconditions and the state equality
    check, the view logs a user in and redirects to the success URL if and
    only if the verifier returned that user and the user is active; when the
    verifier returns no user or an inactive one, the view redirects to the
    failure URL and [login] is not called. *)
Theorem callback_success_iff_active_principal request (w : World Rng) :
  callback_guard oidc_rp_settings (GET request)
    (session w !! "oidc_auth_state") (session w !! "oidc_auth_nonce") = true →
  qd_getitem "state" (GET request) = session w !! "oidc_auth_state" →
  let nonce := session w !! "oidc_auth_nonce" in
  let verified :=
    (authenticate auth nonce request
       (delete "oidc_auth_nonce" (session w))).1 in
  let run := callback request w in
  (∀ user,
     (run.1 = Return success_redirect
      ∧ calls run.2 = calls w ++ [CallAuthenticate nonce; CallLogin user])
     ↔ (verified = Some user ∧ is_active user = true))
  ∧ ((¬ ∃ user, verified = Some user ∧ is_active user = true) →
     run.1 = Return failure_redirect
     ∧ calls run.2 = calls w ++ [CallAuthenticate nonce]).
Proof.
  intros Hg Hst nonce verified run. subst run.
  rewrite (callback_guard_true_match request w Hg Hst).
  subst verified nonce.
  destruct (authenticate auth _ request _) as [[u|] s']; simpl.
  - destruct (is_active u) eqn:Hact; simpl.
    + split.
      * intros user. split.
        -- intros [_ Hcalls]. apply app_inv_head in Hcalls.
           injection Hcalls as ->. split; [reflexivity | exact Hact].
        -- intros [[= ->] _]. split; reflexivity.
      * intros Hno. exfalso. apply Hno. eauto.
    + split; [| intros _; split; reflexivity].
      intros user. split.
      * intros [_ Hcalls]. apply app_inv_head in Hcalls. discriminate.
      * intros [[= ->] Hu]. congruence.
  - split; [| intros _; split; reflexivity].
    intros user. split.
    + intros [_ Hcalls]. apply app_inv_head in Hcalls. discriminate.
    + intros [[=] _].
Qed.



End CallbackProperties.

(** Bounds the keys of a dict built by inserts into the empty dict. *)
Ltac dict_keys :=
  let key := fresh "key" in
  let Hkey := fresh "Hkey" in
  intros key Hkey; apply elem_of_dom in Hkey;
  rewrite ?dom_insert_L, dom_empty_L in Hkey;
  set_unfold; intuition auto 10.

Section RequestProperties.

Context {Rng : Type}.
Variable get_random_string : nat -> Rng -> string * Rng.
Variable urlencode : gmap string string -> string.
Variable reverse : string -> string.
Variable oidc_rp_settings : Settings.

(** C5.  The view that starts the flow returns a redirect to the configured
    authorization endpoint followed by [?] and the URL-encoding of a parameter
    dict that holds exactly: the configured scope, [response_type=code], the
    configured client id, the absolute callback URL as [redirect_uri], the
    state now stored in the session, and a nonce if and only if nonces are in
    use, in which case it is the nonce now stored in the session. *)
Theorem auth_request_redirect request (w : World Rng) :
  let run :=
    OIDCAuthRequestView_get get_random_string urlencode reverse
      oidc_rp_settings request w in
  ∃ params : gmap string string,
    run.1
    = Return (HttpResponseRedirect
                (PROVIDER_AUTHORIZATION_ENDPOINT oidc_rp_settings
                 +:+ "?" +:+ urlencode params))
    ∧ params !! "scope" = Some (SCOPES oidc_rp_settings)
    ∧ params !! "response_type" = Some "code"
    ∧ params !! "client_id" = Some (CLIENT_ID oidc_rp_settings)
    ∧ params !! "redirect_uri"
      = Some (build_absolute_uri request (reverse "oidc_auth_callback"))
    ∧ is_Some (params !! "state")
    ∧ params !! "state" = session run.2 !! "oidc_auth_state"
    ∧ (is_Some (params !! "nonce") ↔ USE_NONCE oidc_rp_settings = true)
    ∧ (USE_NONCE oidc_rp_settings = true →
       params !! "nonce" = session run.2 !! "oidc_auth_nonce")
    ∧ (∀ key, is_Some (params !! key) →
         key ∈ ["scope"; "response_type"; "client_id"; "redirect_uri";
                "state"; "nonce"]).
Proof.
  simpl. unfold OIDCAuthRequestView_get, view_bind, random_string.
  destruct (get_random_string (STATE_LENGTH oidc_rp_settings) (rng w))
    as [state g] eqn:Hstate.
  destruct (USE_NONCE oidc_rp_settings) eqn:Huse; simpl.
  - destruct (get_random_string (NONCE_LENGTH oidc_rp_settings) g)
      as [nonce g'] eqn:Hnonce. simpl.
    exists (<["nonce" := nonce]> (common_params reverse oidc_rp_settings
                                    request state)).
    unfold common_params.
    split_and!; try (by simplify_map_eq). dict_keys.
  - exists (common_params reverse oidc_rp_settings request state).
    unfold common_params.
    split_and!; try (by simplify_map_eq). dict_keys.
Qed.

(** C9.  The end-session view always clears the local session and
    authentication state and returns a redirect: to the provider's
    end-session endpoint, with the post-logout redirect URI and the ID-token
    hint, if there is one, as the only parameters, when such an endpoint is
    configured; to the post-logout target otherwise. *)
Theorem end_session_redirect (inputs : EndSessionInputs) (w : World Rng) :
  let run := OIDCEndSessionView_get urlencode oidc_rp_settings inputs w in
  session run.2 = ∅
  ∧ calls run.2 = calls w ++ [CallLogout]
  ∧ match PROVIDER_END_SESSION_ENDPOINT oidc_rp_settings with
    | Some endpoint =>
        ∃ params : gmap string string,
          run.1
          = Return (HttpResponseRedirect
                      (endpoint +:+ "?" +:+ urlencode params))
          ∧ params !! "post_logout_redirect_uri"
            = Some (post_logout_redirect_uri inputs)
          ∧ params !! "id_token_hint" = id_token_hint inputs
          ∧ (∀ key, is_Some (params !! key) →
               key ∈ ["post_logout_redirect_uri"; "id_token_hint"])
    | None =>
        run.1 = Return (HttpResponseRedirect (post_logout_target inputs))
    end.
Proof.
  simpl. unfold OIDCEndSessionView_get, view_bind, clear_local_session.
  simpl.
  destruct (PROVIDER_END_SESSION_ENDPOINT oidc_rp_settings) as [endpoint|];
    simpl; [| split_and!; reflexivity].
  split_and!; try reflexivity.
  exists (end_session_params inputs). unfold end_session_params.
  destruct (id_token_hint inputs) as [token|];
    (split_and!; try (by simplify_map_eq)); dict_keys.
Qed.

End RequestProperties.

(** ** The views on concrete requests *)

(** Scenario A of the specification: state ["abc123"] in the session, nonces
    disabled, callback with [code=XYZ&state=abc123]. *)
Example scenario_a :
  let run :=
    OIDCAuthCallbackView_get example_auth (example_settings false)
      (example_request [("code", "XYZ"); ("state", "abc123")])
      (example_world {["oidc_auth_state" := "abc123"]}) in
  run.1 = Return (HttpResponseRedirect "/")
  ∧ calls run.2 = [CallAuthenticate None; CallLogin alice].
Proof. vm_compute. split; reflexivity. Qed.

(** Scenario B: the same with [state=WRONG]. *)
Example scenario_b :
  let run :=
    OIDCAuthCallbackView_get example_auth (example_settings false)
      (example_request [("code", "XYZ"); ("state", "WRONG")])
      (example_world {["oidc_auth_state" := "abc123"]}) in
  run.1
  = Raise (SuspiciousOperation "Invalid OpenID Connect callback state value")
  ∧ calls run.2 = [].
Proof. vm_compute. split; reflexivity. Qed.

(** Scenario C: nonces enabled, session cleared before the callback. *)
Example scenario_c :
  let run :=
    OIDCAuthCallbackView_get example_auth (example_settings true)
      (example_request [("code", "XYZ"); ("state", "abc123")])
      (example_world ∅) in
  run.1 = Return (HttpResponseRedirect "/oidc/failure")
  ∧ calls run.2 = [].
Proof. vm_compute. split; reflexivity. Qed.

(** When [state] is sent twice the view compares the last value. *)
Example repeated_state_parameter :
  (OIDCAuthCallbackView_get example_auth (example_settings false)
     (example_request
        [("code", "XYZ"); ("state", "abc123"); ("state", "WRONG")])
     (example_world {["oidc_auth_state" := "abc123"]})).1
  = Raise (SuspiciousOperation "Invalid OpenID Connect callback state value").
Proof. vm_compute. reflexivity. Qed.

(** With [STATE_LENGTH] set to 0 and a generator that returns a string of the
    requested length, the view that starts the flow stores the empty string as
    the session state. *)
Example empty_state_from_zero_length :
  let settings := {|
    SCOPES := "openid email";
    CLIENT_ID := "rp-client";
    USE_NONCE := false;
    STATE_LENGTH := 0;
    NONCE_LENGTH := 32;
    PROVIDER_AUTHORIZATION_ENDPOINT := "https://op.example/authorize";
    PROVIDER_END_SESSION_ENDPOINT := None;
    AUTHENTICATION_REDIRECT_URI := "/";
    AUTHENTICATION_FAILURE_REDIRECT_URI := "/oidc/failure"
  |} in
  let run :=
    OIDCAuthRequestView_get
      (fun length g => (String.concat "" (replicate length "a"), g))
      (fun _ => "") (fun name => "/oidc/" +:+ name) settings
      (example_request []) (example_world ∅) in
  session run.2 !! "oidc_auth_state" = Some "".
Proof. vm_compute. reflexivity. Qed.

(** C1, counterexample.  The session holds the empty string as its state,
    nonces are disabled, and the callback carries a [code] and a different
    [state]: every condition the claim lists holds, yet the view returns the
    failure redirect and raises nothing. *)
Lemma callback_empty_state_mismatch_redirects :
  let settings := example_settings false in
  let request := example_request [("code", "XYZ"); ("state", "WRONG")] in
  let w := example_world {["oidc_auth_state" := ""]} in
  let run := OIDCAuthCallbackView_get example_auth settings request w in
  (is_Some (session w !! "oidc_auth_nonce") ∨ USE_NONCE settings = false)
  ∧ qd_contains "code" (GET request) = true
  ∧ qd_contains "state" (GET request) = true
  ∧ is_Some (session w !! "oidc_auth_state")
  ∧ qd_getitem "state" (GET request) ≠ session w !! "oidc_auth_state"
  ∧ run.1 = Return (HttpResponseRedirect "/oidc/failure")
  ∧ ¬ (∃ e, run.1 = Raise e).
Proof.
  vm_compute. split_and!; try reflexivity.
  - right. reflexivity.
  - eexists. reflexivity.
  - discriminate.
  - intros [e He]. discriminate.
Qed.

(** C2, counterexample.  The session holds the empty string as its state,
    nonces are disabled, and the callback carries a [code] and an empty
    [state]: the condition of the claim holds (a state value is in the
    session), yet the view does not proceed: it returns the failure redirect
    without raising or calling the verifier. *)
Lemma callback_empty_state_does_not_proceed :
  let settings := example_settings false in
  let request := example_request [("code", "XYZ"); ("state", "")] in
  let w := example_world {["oidc_auth_state" := ""]} in
  let run := OIDCAuthCallbackView_get example_auth settings request w in
  (((∃ n, session w !! "oidc_auth_nonce" = Some n ∧ n ≠ "")
    ∨ USE_NONCE settings = false)
   ∧ (qd_contains "code" (GET request) = true
      ∧ qd_contains "state" (GET request) = true)
   ∧ is_Some (session w !! "oidc_auth_state"))
  ∧ run.1 = Return (HttpResponseRedirect "/oidc/failure")
  ∧ ¬ ((∃ e, run.1 = Raise e)
       ∨ ∃ nonce rest,
           calls run.2 = calls w ++ CallAuthenticate nonce :: rest).
Proof.
  vm_compute. split_and!; try reflexivity.
  - right. reflexivity.
  - eexists. reflexivity.
  - intros [[e He]|(nonce & rest & H)]; discriminate.
Qed.

(** ** The theorems at concrete requests *)

(** Nonces enabled, nonce and state in the session, wrong [state] in the
    callback. *)
Lemma callback_state_mismatch_is_suspicious_witness :
  let request := example_request [("code", "XYZ"); ("state", "WRONG")] in
  let w :=
    example_world
      (<["oidc_auth_nonce" := "n1"]> {["oidc_auth_state" := "abc123"]}) in
  let run :=
    OIDCAuthCallbackView_get example_auth (example_settings true) request w in
  run.1
  = Raise (SuspiciousOperation "Invalid OpenID Connect callback state value")
  ∧ calls run.2 = calls w.
Proof.
  intros request w run.
  apply (callback_state_mismatch_is_suspicious example_auth
           (example_settings true) request w "abc123").
  - left. exists "n1". split; [vm_compute; reflexivity | discriminate].
  - reflexivity.
  - reflexivity.
  - vm_compute. reflexivity.
  - discriminate.
  - vm_compute. discriminate.
Defined.

(** A successful callback whose [login] empties the session of another
    user, followed by any second callback. *)
Lemma callback_consumes_nonce_witness :
  let request := example_request [("code", "XYZ"); ("state", "abc123")] in
  let w :=
    example_world
      (<["oidc_auth_nonce" := "n1"]>
         (<["oidc_auth_state" := "abc123"]> {["_auth_user_id" := "bob"]})) in
  let w' :=
    (OIDCAuthCallbackView_get flushing_auth (example_settings true)
       request w).2 in
  session w' !! "oidc_auth_nonce" = None
  ∧ (USE_NONCE (example_settings true) = true →
     ∀ request',
       (OIDCAuthCallbackView_get flushing_auth (example_settings true)
          request' w').1
       = Return (HttpResponseRedirect "/oidc/failure")
       ∧ calls
           (OIDCAuthCallbackView_get flushing_auth (example_settings true)
              request' w').2
         = calls w').
Proof.
  intros request w.
  apply (callback_consumes_nonce flushing_auth (example_settings true)
           request w).
  split.
  - intros nonce r s Hs. exact Hs.
  - intros r user s Hs. simpl.
    rewrite lookup_insert_ne by discriminate.
    destruct (s !! "_auth_user_id") as [id|]; [| exact Hs].
    destruct (String.eqb id (username user)); [exact Hs | reflexivity].
Defined.

(** A callback with [code] and [state] on a session without state. *)
Lemma callback_without_session_state_redirects_witness :
  let request := example_request [("code", "XYZ"); ("state", "abc123")] in
  let w := example_world {["oidc_auth_nonce" := "n1"]} in
  OIDCAuthCallbackView_get example_auth (example_settings true) request w
  = (Return (HttpResponseRedirect "/oidc/failure"), popped w).
Proof.
  intros request w.
  apply (callback_without_session_state_redirects example_auth
           (example_settings true) request w).
  vm_compute. reflexivity.
Defined.

(** Scenario A, through the theorem. *)
Lemma callback_succeeds_without_nonce_witness :
  let request := example_request [("code", "XYZ"); ("state", "abc123")] in
  let w := example_world {["oidc_auth_state" := "abc123"]} in
  let run :=
    OIDCAuthCallbackView_get example_auth (example_settings false)
      request w in
  run.1 = Return (HttpResponseRedirect "/")
  ∧ calls run.2 = calls w ++ [CallAuthenticate None; CallLogin alice].
Proof.
  intros request w run.
  apply (callback_succeeds_without_nonce example_auth
           (example_settings false) request w "abc123" alice).
  - reflexivity.
  - vm_compute. reflexivity.
  - reflexivity.
  - vm_compute. reflexivity.
  - discriminate.
  - reflexivity.
  - reflexivity.
  - reflexivity.
Defined.

(** Nonces enabled, matching state: the verifier returns [alice]. *)
Lemma callback_success_iff_active_principal_witness :
  let request := example_request [("code", "XYZ"); ("state", "abc123")] in
  let w :=
    example_world
      (<["oidc_auth_nonce" := "n1"]> {["oidc_auth_state" := "abc123"]}) in
  let run :=
    OIDCAuthCallbackView_get example_auth (example_settings true) request w in
  (∀ user,
     (run.1 = Return (HttpResponseRedirect "/")
      ∧ calls run.2
        = calls w ++ [CallAuthenticate (Some "n1"); CallLogin user])
     ↔ (Some alice = Some user ∧ is_active user = true))
  ∧ ((¬ ∃ user, Some alice = Some user ∧ is_active user = true) →
     run.1 = Return (HttpResponseRedirect "/oidc/failure")
     ∧ calls run.2 = calls w ++ [CallAuthenticate (Some "n1")]).
Proof.
  intros request w.
  apply (callback_success_iff_active_principal example_auth
           (example_settings true) request w).
  - vm_compute. reflexivity.
  - vm_compute. reflexivity.
Defined.




(** The stale nonce of the run above reaches the verifier. *)
Example stale_nonce_is_forwarded :
  calls
    (OIDCAuthCallbackView_get example_auth (example_settings false)
       (example_request [("code", "XYZ"); ("state", "abc123")])
       (example_world
          (<["oidc_auth_nonce" := "stale"]>
             {["oidc_auth_state" := "abc123"]}))).2
  = [CallAuthenticate (Some "stale"); CallLogin alice].
Proof. vm_compute. reflexivity. Qed.

(** ** Further properties of the callback view *)

Section CallbackBehaviour.

Context {Rng : Type}.
Variable auth : Auth.
Variable oidc_rp_settings : Settings.

Local Abbreviation callback := (OIDCAuthCallbackView_get auth oidc_rp_settings).
Local Abbreviation failure_redirect :=
  (HttpResponseRedirect
     (AUTHENTICATION_FAILURE_REDIRECT_URI oidc_rp_settings)).
Local Abbreviation success_redirect :=
  (HttpResponseRedirect (AUTHENTICATION_REDIRECT_URI oidc_rp_settings)).
Local Abbreviation invalid_state :=
  (SuspiciousOperation "Invalid OpenID Connect callback state value").
Local Abbreviation guard request w :=
  (callback_guard oidc_rp_settings (GET request)
     (session w !! "oidc_auth_state") (session w !! "oidc_auth_nonce")).

(** Splits a goal about a run of the view along its three paths: guard false,
    guard true with differing states, guard true with equal states. *)
Ltac callback_paths request w Hg Hst :=
  destruct (guard request w) eqn:Hg;
  [ destruct (decide (qd_getitem "state" (GET request)
                      = session w !! "oidc_auth_state")) as [Hst|Hst];
    [ rewrite (callback_guard_true_match auth oidc_rp_settings request w
                 Hg Hst)
    | rewrite (callback_guard_true_mismatch auth oidc_rp_settings request w
                 Hg Hst) ]
  | rewrite (callback_guard_false auth oidc_rp_settings request w Hg) ].

(** X1.  Whenever the callback view returns a response, it is the redirect
    to the configured failure URL, or the redirect to the configured success
    URL after a run that called the verifier and then [login]: the target of
    the redirect never comes from the request. *)
Theorem callback_redirect_targets request (w : World Rng) response :
  (callback request w).1 = Return response →
  response = failure_redirect
  ∨ (response = success_redirect
     ∧ ∃ user,
         calls (callback request w).2
         = calls w
           ++ [CallAuthenticate (session w !! "oidc_auth_nonce");
               CallLogin user]).
Proof.
  callback_paths request w Hg Hst; simpl.
  - destruct (authenticate auth _ request _) as [[u|] s']; simpl;
      [destruct (is_active u)|]; simpl; intros [= <-]; eauto.
  - discriminate.
  - intros [= <-]. auto.
Qed.


(** X3.  [login] is only ever called for a user that the verifier returned in
    the same run and that is active, after a callback that carried a [code]
    and a [state] equal to the non-empty session state (and found a non-empty
    nonce when nonces are in use); the run then returns the success
    redirect. *)
Theorem callback_login_only_verified_active request (w : World Rng) user :
  CallLogin user ∈ added_calls w (callback request w).2 →
  let nonce := session w !! "oidc_auth_nonce" in
  (authenticate auth nonce request
     (delete "oidc_auth_nonce" (session w))).1 = Some user
  ∧ is_active user = true
  ∧ qd_contains "code" (GET request) = true
  ∧ (∃ state,
       session w !! "oidc_auth_state" = Some state ∧ state ≠ ""
       ∧ qd_getitem "state" (GET request) = Some state)
  ∧ (USE_NONCE oidc_rp_settings = true → ∃ n, nonce = Some n ∧ n ≠ "")
  ∧ (callback request w).1 = Return success_redirect
  ∧ calls (callback request w).2
    = calls w ++ [CallAuthenticate nonce; CallLogin user].
Proof.
  unfold added_calls. callback_paths request w Hg Hst; simpl;
    [| rewrite drop_all; intros Hin; inversion Hin ..].
  pose proof Hg as Hg'.
  apply callback_guard_true in Hg' as (Hn & [Hc _] & Ht).
  apply truthy_nonempty in Ht as (state & Hstate & Hne).
  destruct (authenticate auth _ request _) as [[u|] s'] eqn:Hv; simpl;
    [destruct (is_active u) eqn:Hact|]; simpl; rewrite drop_app_length;
    intros Hin.
  - apply elem_of_cons in Hin as [Hin|Hin]; [discriminate |].
    apply list_elem_of_singleton in Hin as [= ->].
    split_and!; try done.
    + exists state. split_and!; congruence.
    + intros Huse. destruct Hn as [Hn|Hn]; [| congruence].
      apply truthy_nonempty, Hn.
  - apply list_elem_of_singleton in Hin. discriminate.
  - apply list_elem_of_singleton in Hin. discriminate.
Qed.

(** X4.  A callback that lacks [code] or [state] gets the failure redirect:
    the view pops the nonce and does nothing else; in particular it does not
    compare states and does not raise, whatever the session holds. *)
Theorem callback_missing_parameter_redirects request (w : World Rng) :
  qd_contains "code" (GET request) = false
  ∨ qd_contains "state" (GET request) = false →
  callback request w = (Return failure_redirect, popped w).
Proof.
  intros Hmiss. apply callback_guard_false. unfold callback_guard.
  destruct Hmiss as [-> | ->]; simpl;
    rewrite ?andb_false_r; reflexivity.
Qed.

(** Entries other than the nonce survive a run when the collaborators leave
    them alone. *)
Lemma callback_entry_kept request (w : World Rng) key :
  key ≠ "oidc_auth_nonce" →
  leaves_entry auth key →
  session (callback request w).2 !! key = session w !! key.
Proof.
  intros Hkey [Ha Hl].
  assert (Hpop : delete "oidc_auth_nonce" (session w) !! key
                 = session w !! key)
    by (apply lookup_delete_ne; congruence).
  callback_paths request w Hg Hst; simpl; try exact Hpop.
  specialize (Ha (session w !! "oidc_auth_nonce") request
                (delete "oidc_auth_nonce" (session w))).
  rewrite Hpop in Ha.
  destruct (authenticate auth _ request _) as [[u|] s']; simpl in *;
    [destruct (is_active u)|]; simpl; [rewrite Hl | |]; exact Ha.
Qed.

(** X5.  The only thing the view itself does to the session is to remove the
    nonce: when the run calls no collaborator the session afterwards is the
    old one without [oidc_auth_nonce], and in every run an entry under
    another key that the collaborators leave alone is unchanged. *)
Theorem callback_session_frame request (w : World Rng) :
  (added_calls w (callback request w).2 = [] →
   session (callback request w).2 = delete "oidc_auth_nonce" (session w))
  ∧ (∀ key,
       key ≠ "oidc_auth_nonce" →
       leaves_entry auth key →
       session (callback request w).2 !! key = session w !! key).
Proof.
  split; [| intros key; apply callback_entry_kept].
  unfold added_calls. callback_paths request w Hg Hst; simpl; try done.
  destruct (authenticate auth _ request _) as [[u|] s']; simpl;
    [destruct (is_active u)|]; simpl; rewrite drop_app_length;
    discriminate.
Qed.

(** X6.  The session state is not consumed: with nonces disabled, after a
    callback that passed the checks a second callback with the same
    parameters reaches the verifier again (the collaborators being assumed to
    leave the state entry alone). *)
Theorem callback_replay_reaches_verifier request (w : World Rng) state :
  USE_NONCE oidc_rp_settings = false →
  leaves_entry auth "oidc_auth_state" →
  qd_contains "code" (GET request) = true →
  session w !! "oidc_auth_state" = Some state →
  state ≠ "" →
  qd_getitem "state" (GET request) = Some state →
  let w' := (callback request w).2 in
  ∃ rest,
    calls (callback request w').2
    = calls w' ++ CallAuthenticate (session w' !! "oidc_auth_nonce") :: rest.
Proof.
  intros Huse Hle Hc Hst Hne Hsent w'.
  assert (Hkept : session w' !! "oidc_auth_state" = Some state).
  { subst w'. rewrite callback_entry_kept; [exact Hst | discriminate | exact Hle]. }
  rewrite callback_guard_true_match.
  - destruct (authenticate auth _ request _) as [[u|] s']; simpl;
      [destruct (is_active u)|]; simpl; eauto.
  - apply callback_guard_true. split_and!.
    + right. exact Huse.
    + exact Hc.
    + apply qd_contains_getitem. eauto.
    + apply truthy_nonempty. eauto.
  - congruence.
Qed.

End CallbackBehaviour.

(** ** Further properties of the view that starts the flow *)

Section RequestBehaviour.

Context {Rng : Type}.
Variable get_random_string : nat -> Rng -> string * Rng.
Variable urlencode : gmap string string -> string.
Variable reverse : string -> string.
Variable auth : Auth.
Variable oidc_rp_settings : Settings.

Local Abbreviation start :=
  (OIDCAuthRequestView_get get_random_string urlencode reverse
     oidc_rp_settings).
Local Abbreviation callback := (OIDCAuthCallbackView_get auth oidc_rp_settings).
Local Abbreviation first_draw w :=
  (get_random_string (STATE_LENGTH oidc_rp_settings) (rng w)).
Local Abbreviation second_draw w :=
  (get_random_string (NONCE_LENGTH oidc_rp_settings) (first_draw w).2).

(** The run of the view, by cases on [USE_NONCE]. *)
Lemma auth_request_run request (w : World Rng) :
  start request w =
    if USE_NONCE oidc_rp_settings then
      (Return
         (HttpResponseRedirect
            (PROVIDER_AUTHORIZATION_ENDPOINT oidc_rp_settings +:+ "?"
             +:+ urlencode
                   (<["nonce" := (second_draw w).1]>
                      (common_params reverse oidc_rp_settings request
                         (first_draw w).1)))),
       {| session :=
            <["oidc_auth_state" := (first_draw w).1]>
              (<["oidc_auth_nonce" := (second_draw w).1]> (session w));
          calls := calls w;
          rng := (second_draw w).2 |})
    else
      (Return
         (HttpResponseRedirect
            (PROVIDER_AUTHORIZATION_ENDPOINT oidc_rp_settings +:+ "?"
             +:+ urlencode
                   (common_params reverse oidc_rp_settings request
                      (first_draw w).1))),
       {| session := <["oidc_auth_state" := (first_draw w).1]> (session w);
          calls := calls w;
          rng := (first_draw w).2 |}).
Proof.
  unfold OIDCAuthRequestView_get, view_bind, random_string.
  destruct (get_random_string (STATE_LENGTH oidc_rp_settings) (rng w))
    as [state g].
  destruct (USE_NONCE oidc_rp_settings); simpl; [| reflexivity].
  destruct (get_random_string (NONCE_LENGTH oidc_rp_settings) g)
    as [nonce g']. reflexivity.
Qed.

(** What a callback finds after the view has run: the state and nonce
    entries and the calls. *)
Lemma auth_request_leaves request (w : World Rng) :
  session (start request w).2 !! "oidc_auth_state" = Some (first_draw w).1
  ∧ session (start request w).2 !! "oidc_auth_nonce"
    = (if USE_NONCE oidc_rp_settings then Some (second_draw w).1
       else session w !! "oidc_auth_nonce")
  ∧ calls (start request w).2 = calls w.
Proof.
  rewrite auth_request_run.
  destruct (USE_NONCE oidc_rp_settings); simpl; split_and!;
    try reflexivity; try apply lookup_insert_eq.
  - rewrite lookup_insert_ne by discriminate. apply lookup_insert_eq.
  - by rewrite lookup_insert_ne.
Qed.

(** X7.  The view that starts the flow always returns a response, calls
    neither the verifier nor [login], and writes the session under
    [oidc_auth_state] and, when nonces are in use, [oidc_auth_nonce] only;
    with nonces disabled a nonce left in the session by an earlier request
    stays there. *)
Theorem auth_request_effects request (w : World Rng) :
  (∃ response, (start request w).1 = Return response)
  ∧ calls (start request w).2 = calls w
  ∧ (∀ key,
       key ≠ "oidc_auth_state" → key ≠ "oidc_auth_nonce" →
       session (start request w).2 !! key = session w !! key)
  ∧ (USE_NONCE oidc_rp_settings = false →
     session (start request w).2 !! "oidc_auth_nonce"
     = session w !! "oidc_auth_nonce").
Proof.
  rewrite auth_request_run.
  destruct (USE_NONCE oidc_rp_settings); simpl; split_and!; eauto.
  - intros key Hs Hn. by rewrite !lookup_insert_ne.
  - discriminate.
  - intros key Hs Hn. by rewrite lookup_insert_ne.
  - intros _. by rewrite lookup_insert_ne.
Qed.

(** X8.  The state stored in the session is the first string drawn from the
    generator, asked with [STATE_LENGTH]; when nonces are in use the nonce
    stored is a second string, drawn with [NONCE_LENGTH] from the generator
    as the first draw left it, so state and nonce never come from one draw.
    The generator is advanced by exactly the draws made. *)
Theorem auth_request_draws request (w : World Rng) :
  session (start request w).2 !! "oidc_auth_state" = Some (first_draw w).1
  ∧ (USE_NONCE oidc_rp_settings = true →
     session (start request w).2 !! "oidc_auth_nonce"
     = Some (second_draw w).1
     ∧ rng (start request w).2 = (second_draw w).2)
  ∧ (USE_NONCE oidc_rp_settings = false →
     rng (start request w).2 = (first_draw w).2).
Proof.
  rewrite auth_request_run.
  destruct (USE_NONCE oidc_rp_settings); simpl; split_and!;
    try discriminate; try (intros _).
  - apply lookup_insert_eq.
  - split; [| reflexivity].
    rewrite lookup_insert_ne by discriminate. apply lookup_insert_eq.
  - apply lookup_insert_eq.
  - reflexivity.
Qed.

(** X9.  What the session held before has no influence on a new
    authentication request: two runs with the same generator state and the
    same request return the same redirect and store the same state (and the
    same nonce when nonces are in use), whatever the two sessions held. *)
Theorem auth_request_ignores_old_session request (w1 w2 : World Rng) :
  rng w1 = rng w2 →
  (start request w1).1 = (start request w2).1
  ∧ session (start request w1).2 !! "oidc_auth_state"
    = session (start request w2).2 !! "oidc_auth_state"
  ∧ (USE_NONCE oidc_rp_settings = true →
     session (start request w1).2 !! "oidc_auth_nonce"
     = session (start request w2).2 !! "oidc_auth_nonce").
Proof.
  intros Hrng. rewrite !auth_request_run, Hrng.
  destruct (USE_NONCE oidc_rp_settings); simpl; split_and!;
    try discriminate; try reflexivity; try (intros _).
  - by rewrite !lookup_insert_eq.
  - rewrite !(lookup_insert_ne _ "oidc_auth_state") by discriminate.
    by rewrite !lookup_insert_eq.
  - by rewrite !lookup_insert_eq.
Qed.

(** X10.  Start, then callback: when the strings drawn are not empty, a
    callback that carries a [code] and the state just issued passes the
    checks, and the verifier is called with the nonce just issued; with
    nonces disabled it is called with whatever nonce the session held before
    the flow started. *)
Theorem auth_request_then_callback request request' (w : World Rng) :
  (first_draw w).1 ≠ "" →
  (USE_NONCE oidc_rp_settings = true → (second_draw w).1 ≠ "") →
  qd_contains "code" (GET request') = true →
  qd_getitem "state" (GET request') = Some (first_draw w).1 →
  let issued_nonce :=
    if USE_NONCE oidc_rp_settings then Some (second_draw w).1
    else session w !! "oidc_auth_nonce" in
  ∃ rest,
    calls (callback request' (start request w).2).2
    = calls w ++ CallAuthenticate issued_nonce :: rest.
Proof.
  intros Hstate Hnonce Hc Hsent issued_nonce.
  pose proof (auth_request_leaves request w) as (Hs & Hissued & Hcalls).
  fold issued_nonce in Hissued.
  rewrite callback_guard_true_match.
  - rewrite Hissued, Hcalls.
    destruct (authenticate auth _ request' _) as [[u|] s']; simpl;
      [destruct (is_active u)|]; simpl; eauto.
  - apply callback_guard_true. rewrite Hs, Hissued. split_and!.
    + subst issued_nonce.
      destruct (USE_NONCE oidc_rp_settings); [left | right; reflexivity].
      apply truthy_nonempty. eauto.
    + exact Hc.
    + apply qd_contains_getitem. eauto.
    + apply truthy_nonempty. eauto.
  - congruence.
Qed.

(** X11.  Start, then a forged callback: when the strings drawn are not
    empty, a callback that carries a [code] and a [state] other than the one
    just issued raises [SuspiciousOperation]; neither the verifier nor
    [login] is called. *)
Theorem auth_request_then_forged_callback request request' (w : World Rng)
    (sent : string) :
  (first_draw w).1 ≠ "" →
  (USE_NONCE oidc_rp_settings = true → (second_draw w).1 ≠ "") →
  qd_contains "code" (GET request') = true →
  qd_getitem "state" (GET request') = Some sent →
  sent ≠ (first_draw w).1 →
  (callback request' (start request w).2).1
  = Raise (SuspiciousOperation "Invalid OpenID Connect callback state value")
  ∧ calls (callback request' (start request w).2).2 = calls w.
Proof.
  intros Hstate Hnonce Hc Hsent Hdiff.
  pose proof (auth_request_leaves request w) as (Hs & Hn & Hcalls).
  rewrite callback_guard_true_mismatch.
  - split; [reflexivity | exact Hcalls].
  - apply callback_guard_true. rewrite Hs, Hn. split_and!.
    + destruct (USE_NONCE oidc_rp_settings);
        [left | right; reflexivity].
      apply truthy_nonempty. eauto.
    + exact Hc.
    + apply qd_contains_getitem. eauto.
    + apply truthy_nonempty. eauto.
  - rewrite Hs, Hsent. congruence.
Qed.

(** X12.  Starting the flow again replaces the artifacts of the first start:
    once the state of the second start differs from the first, a callback
    that answers the first start (with its [code] and the first state) is
    refused as a state mismatch. *)
Theorem auth_request_restart_invalidates request1 request2 request'
    (w : World Rng) :
  let w1 := (start request1 w).2 in
  (first_draw w1).1 ≠ "" →
  (USE_NONCE oidc_rp_settings = true → (second_draw w1).1 ≠ "") →
  (first_draw w).1 ≠ (first_draw w1).1 →
  qd_contains "code" (GET request') = true →
  qd_getitem "state" (GET request') = Some (first_draw w).1 →
  (callback request' (start request2 w1).2).1
  = Raise (SuspiciousOperation "Invalid OpenID Connect callback state value").
Proof.
  intros w1 Hstate Hnonce Hdiff Hc Hsent.
  pose proof (auth_request_leaves request2 w1) as (Hs & Hn & _).
  rewrite callback_guard_true_mismatch.
  - reflexivity.
  - apply callback_guard_true. rewrite Hs, Hn. split_and!.
    + destruct (USE_NONCE oidc_rp_settings);
        [left | right; reflexivity].
      apply truthy_nonempty. eauto.
    + exact Hc.
    + apply qd_contains_getitem. eauto.
    + apply truthy_nonempty. eauto.
  - rewrite Hs, Hsent. congruence.
Qed.

End RequestBehaviour.

(** ** The further properties at concrete requests *)

(** Scenario A returns the success redirect, after the verifier and
    [login]. *)
Lemma callback_redirect_targets_witness :
  let request := example_request [("code", "XYZ"); ("state", "abc123")] in
  let w := example_world {["oidc_auth_state" := "abc123"]} in
  let run :=
    OIDCAuthCallbackView_get example_auth (example_settings false)
      request w in
  HttpResponseRedirect "/" = HttpResponseRedirect "/oidc/failure"
  ∨ (HttpResponseRedirect "/" = HttpResponseRedirect "/"
     ∧ ∃ user,
         calls run.2 = calls w ++ [CallAuthenticate None; CallLogin user]).
Proof.
  intros request w run.
  apply (callback_redirect_targets example_auth (example_settings false)
           request w (HttpResponseRedirect "/")).
  vm_compute. reflexivity.
Defined.

(** Scenario A logs [alice] in. *)
Lemma callback_login_only_verified_active_witness :
  let request := example_request [("code", "XYZ"); ("state", "abc123")] in
  let w := example_world {["oidc_auth_state" := "abc123"]} in
  let run :=
    OIDCAuthCallbackView_get example_auth (example_settings false)
      request w in
  is_active alice = true
  ∧ run.1 = Return (HttpResponseRedirect "/")
  ∧ calls run.2 = calls w ++ [CallAuthenticate None; CallLogin alice].
Proof.
  intros request w run.
  assert (Hin : CallLogin alice ∈ added_calls w run.2).
  { vm_compute. apply list_elem_of_further, list_elem_of_here. }
  pose proof (callback_login_only_verified_active example_auth
                (example_settings false) request w alice Hin)
    as (_ & Hact & _ & _ & _ & Hres & Hcalls).
  split_and!; [exact Hact | exact Hres | exact Hcalls].
Defined.

(** A callback without [code]. *)
Lemma callback_missing_parameter_redirects_witness :
  let request := example_request [("state", "WRONG")] in
  let w := example_world {["oidc_auth_state" := "abc123"]} in
  OIDCAuthCallbackView_get example_auth (example_settings false) request w
  = (Return (HttpResponseRedirect "/oidc/failure"), popped w).
Proof.
  intros request w.
  apply (callback_missing_parameter_redirects example_auth
           (example_settings false) request w).
  left. reflexivity.
Defined.

(** Scenario A, played twice. *)
Lemma callback_replay_reaches_verifier_witness :
  let request := example_request [("code", "XYZ"); ("state", "abc123")] in
  let w := example_world {["oidc_auth_state" := "abc123"]} in
  let w' :=
    (OIDCAuthCallbackView_get example_auth (example_settings false)
       request w).2 in
  ∃ rest,
    calls
      (OIDCAuthCallbackView_get example_auth (example_settings false)
         request w').2
    = calls w' ++ CallAuthenticate (session w' !! "oidc_auth_nonce") :: rest.
Proof.
  intros request w.
  apply (callback_replay_reaches_verifier example_auth
           (example_settings false) request w "abc123").
  - reflexivity.
  - split.
    + intros nonce r s. reflexivity.
    + intros r user s. apply lookup_insert_ne. discriminate.
  - reflexivity.
  - vm_compute. reflexivity.
  - discriminate.
  - reflexivity.
Defined.

(** Two sessions, one of them with old artifacts, and the same generator
    state. *)
Lemma auth_request_ignores_old_session_witness :
  let start :=
    OIDCAuthRequestView_get example_get_random_string example_urlencode
      example_reverse (example_settings true) (example_request []) in
  let w1 := example_world_from ∅ 0 in
  let w2 :=
    example_world_from
      (<["oidc_auth_nonce" := "old"]> {["oidc_auth_state" := "old"]}) 0 in
  (start w1).1 = (start w2).1
  ∧ session (start w1).2 !! "oidc_auth_state"
    = session (start w2).2 !! "oidc_auth_state"
  ∧ (USE_NONCE (example_settings true) = true →
     session (start w1).2 !! "oidc_auth_nonce"
     = session (start w2).2 !! "oidc_auth_nonce").
Proof.
  intros start w1 w2.
  apply (auth_request_ignores_old_session example_get_random_string
           example_urlencode example_reverse (example_settings true)
           (example_request []) w1 w2).
  reflexivity.
Defined.

(** A start with nonces, then the callback that answers it. *)
Lemma auth_request_then_callback_witness :
  let w := example_world_from ∅ 0 in
  let state := String.concat "" (replicate 32 "a") in
  let nonce := String.concat "" (replicate 32 "b") in
  let request' := example_request [("code", "XYZ"); ("state", state)] in
  ∃ rest,
    calls
      (OIDCAuthCallbackView_get example_auth (example_settings true) request'
         (OIDCAuthRequestView_get example_get_random_string
            example_urlencode example_reverse (example_settings true)
            (example_request []) w).2).2
    = calls w ++ CallAuthenticate (Some nonce) :: rest.
Proof.
  intros w state nonce request'.
  apply (auth_request_then_callback example_get_random_string
           example_urlencode example_reverse example_auth
           (example_settings true) (example_request []) request' w).
  - vm_compute. discriminate.
  - intros _. vm_compute. discriminate.
  - reflexivity.
  - vm_compute. reflexivity.
Defined.

(** A start with nonces, then a callback with another state. *)
Lemma auth_request_then_forged_callback_witness :
  let w := example_world_from ∅ 0 in
  let request' := example_request [("code", "XYZ"); ("state", "WRONG")] in
  let run :=
    OIDCAuthCallbackView_get example_auth (example_settings true) request'
      (OIDCAuthRequestView_get example_get_random_string
         example_urlencode example_reverse (example_settings true)
         (example_request []) w).2 in
  run.1
  = Raise (SuspiciousOperation "Invalid OpenID Connect callback state value")
  ∧ calls run.2 = calls w.
Proof.
  intros w request' run.
  apply (auth_request_then_forged_callback example_get_random_string
           example_urlencode example_reverse example_auth
           (example_settings true) (example_request []) request' w "WRONG").
  - vm_compute. discriminate.
  - intros _. vm_compute. discriminate.
  - reflexivity.
  - reflexivity.
  - vm_compute. discriminate.
Defined.

(** Two starts without nonces, then a callback that answers the first. *)
Lemma auth_request_restart_invalidates_witness :
  let start :=
    OIDCAuthRequestView_get example_get_random_string example_urlencode
      example_reverse (example_settings false) (example_request []) in
  let w := example_world_from ∅ 0 in
  let first_state := String.concat "" (replicate 32 "a") in
  let request' :=
    example_request [("code", "XYZ"); ("state", first_state)] in
  (OIDCAuthCallbackView_get example_auth (example_settings false) request'
     (start (start w).2).2).1
  = Raise (SuspiciousOperation "Invalid OpenID Connect callback state value").
Proof.
  intros start w first_state request'.
  apply (auth_request_restart_invalidates example_get_random_string
           example_urlencode example_reverse example_auth
           (example_settings false) (example_request []) (example_request [])
           request' w).
  - vm_compute. discriminate.
  - intros H. discriminate H.
  - vm_compute. discriminate.
  - reflexivity.
  - vm_compute. reflexivity.
Defined.
